(** * Profile-to-telemetry export of [app/main.py]

    A shallow embedding of [export_profile_stats] and [get_profile] and the
    properties of the export step.  Python integers are [Z], Python floats
    are IEEE binary64 numbers ([float]), dictionaries that are only looked
    up are [gmap]s, and the table [stats.stats], which the export loop walks
    in insertion order, is a list of items.  A key of that table is a tuple
    of strings and integers and a value is a tuple of five components, as
    the loop unpacks it.  The OpenTelemetry SDK is modelled by the calls the
    program makes on it: the spans it opens and closes, the attributes it
    sets and the measurements it records. *)

From Stdlib Require Import ZArith String Ascii Floats Sorted.
From stdpp Require Import base list gmap strings pretty.

Local Open Scope Z_scope.

(* Decimal float literals denote the nearest binary64 number, as in Python. *)
Set Warnings "-inexact-float".

(** ** Python values *)

Module Py.

(** Components of a profiler key: file names and function names are
    strings, line numbers are integers. *)
Inductive Atom : Type :=
  | AStr (s : string)
  | AInt (n : Z).

(** Values handed to the telemetry API or to [jsonify]. *)
Inductive Value : Type :=
  | VStr (s : string)
  | VInt (n : Z)
  | VFloat (x : float).

Definition of_atom (a : Atom) : Value :=
  match a with
  | AStr s => VStr s
  | AInt n => VInt n
  end.

(** A key of [stats.stats] is a tuple. *)
Definition Tuple : Type := list Atom.

Definition len (t : Tuple) : Z := Z.of_nat (length t).

Definition squote : ascii := "'"%char.
Definition dquote : ascii := "034"%char.
Definition backslash : ascii := "\"%char.

Fixpoint contains (c : ascii) (s : string) : bool :=
  match s with
  | EmptyString => false
  | String d r => if Ascii.eqb c d then true else contains c r
  end.

(** [repr] of a string is quoted with ['] unless the string holds a [']
    and no double quote. *)
Definition quote_of (s : string) : ascii :=
  if contains squote s && negb (contains dquote s) then dquote else squote.

Definition hex_digit (n : N) : ascii :=
  ascii_of_N (if (n <? 10)%N then 48 + n else 87 + n)%N.

Definition hex_escape (c : ascii) : string :=
  let n := N_of_ascii c in
  String backslash
    (String "x" (String (hex_digit (n / 16)) (String (hex_digit (n mod 16)) EmptyString))).

(** One character of a string under [repr], code points below 256. *)
Definition escape (q c : ascii) : string :=
  let n := N_of_ascii c in
  if Ascii.eqb c q || Ascii.eqb c backslash then String backslash (String c EmptyString)
  else if (n =? 9)%N then String backslash "t"
  else if (n =? 10)%N then String backslash "n"
  else if (n =? 13)%N then String backslash "r"
  else if (n <? 32)%N || (n =? 127)%N then hex_escape c
  else if (n <? 127)%N then String c EmptyString
  else if (n <=? 160)%N || (n =? 173)%N then hex_escape c
  else String c EmptyString.

Fixpoint escape_all (q : ascii) (s : string) : string :=
  match s with
  | EmptyString => EmptyString
  | String c r => escape q c +:+ escape_all q r
  end.

Definition repr_str (s : string) : string :=
  let q := quote_of s in
  String q (escape_all q s +:+ String q EmptyString).

Definition repr (a : Atom) : string :=
  match a with
  | AStr s => repr_str s
  | AInt n => pretty n
  end.

(** [str(t)] for a tuple [t]: the [repr] of its items between
    parentheses, with the trailing comma of a one-item tuple. *)
Definition str (t : Tuple) : string :=
  match t with
  | [] => "()"
  | [a] => "(" +:+ repr a +:+ ",)"
  | _ => "(" +:+ String.concat ", " (map repr t) +:+ ")"
  end.

(** [x * 1000] for a float [x]: the integer is converted, the product is
    rounded to nearest. *)
Definition times_1000 (x : float) : float := PrimFloat.mul x 1000%float.

End Py.

(** ** The telemetry surface *)

Module Otel.

(** The instruments created from [meter] at module level. *)
Inductive Instrument : Type :=
  | function_duration
  | function_calls
  | profile_function_calls
  | profile_function_time
  | profile_total_time.

#[global] Instance Instrument_eq_dec : EqDecision Instrument.
Proof. solve_decision. Defined.

(** One call of [record(amount, attributes)]; a call without attributes
    carries the empty map. *)
Record Measurement : Type := Measure {
  instrument : Instrument;
  amount : Py.Value;
  attributes : gmap string Py.Value;
}.

Record Span : Type := MkSpan {
  span_name : string;
  span_attributes : gmap string Py.Value;
}.

(** What the SDK has seen: the spans that are current (innermost first),
    the spans that ended, and the measurements, oldest first. *)
Record Telemetry : Type := MkTelemetry {
  active : list Span;
  ended : list Span;
  recorded : list Measurement;
}.

Definition empty : Telemetry := MkTelemetry [] [] [].

(** Code that talks to the SDK is a state transformer. *)
Definition Tel (A : Type) : Type := Telemetry -> A * Telemetry.

Definition exec {A} (c : Tel A) (t : Telemetry) : Telemetry := snd (c t).
Definition eval {A} (c : Tel A) (t : Telemetry) : A := fst (c t).

#[global] Instance Tel_ret : MRet Tel := fun A x t => (x, t).
#[global] Instance Tel_bind : MBind Tel :=
  fun A B f c t => let '(x, t') := c t in f x t'.

Definition start_span (name : string) : Tel unit :=
  fun t => ((), MkTelemetry (MkSpan name ∅ :: active t) (ended t) (recorded t)).

Definition end_span : Tel unit :=
  fun t =>
    match active t with
    | [] => ((), t)
    | sp :: rest => ((), MkTelemetry rest (ended t ++ [sp]) (recorded t))
    end.

(** [with tracer.start_as_current_span(name) as span: body] *)
Definition start_as_current_span {A} (name : string) (body : Tel A) : Tel A :=
  start_span name ;; r ← body; end_span ;; mret r.

(** [span.set_attribute(key, value)] on the span of the enclosing [with]. *)
Definition set_attribute (key : string) (v : Py.Value) : Tel unit :=
  fun t =>
    match active t with
    | [] => ((), t)
    | sp :: rest =>
        ((), MkTelemetry (MkSpan (span_name sp) (<[key := v]> (span_attributes sp)) :: rest)
               (ended t) (recorded t))
    end.

Definition record (i : Instrument) (v : Py.Value) (attrs : gmap string Py.Value) : Tel unit :=
  fun t => ((), MkTelemetry (active t) (ended t) (recorded t ++ [Measure i v attrs])).

(** [for x in xs: body(x)] *)
Fixpoint for_each {A} (xs : list A) (body : A -> Tel unit) : Tel unit :=
  match xs with
  | [] => mret ()
  | x :: rest => body x ;; for_each rest body
  end.

(** The measurements of one instrument, in the order they were made. *)
Definition of_instrument (i : Instrument) (ms : list Measurement) : list Measurement :=
  filter (fun m => instrument m = i) ms.

End Otel.

Import Otel.

(** ** The snapshot and the export step *)

(** A value of [stats.stats] is the tuple [(cc, nc, tt, ct, callers)] that
    the loop unpacks: two counts, two times in seconds and the callers
    table, which the export does not read. *)
Definition Callers : Type := list (Py.Tuple * (Z * Z * float * float)).
Definition Entry : Type := Z * Z * float * float * Callers.

(** The attributes of a [pstats.Stats] object that the program reads. *)
Record Stats : Type := MkStats {
  total_calls : Z;
  total_tt : float;
  stats : list (Py.Tuple * Entry);
}.

(** Lines 109 to 112: the file and the name taken from a key. *)
Definition function_info (func : Py.Tuple) : Py.Value * Py.Value :=
  if decide (Py.len func = 3) then
    match func with
    | [filename; lineno; funcname] => (Py.of_atom filename, Py.of_atom funcname)
    | _ => (Py.VStr "unknown", Py.VStr (Py.str func))
    end
  else (Py.VStr "unknown", Py.VStr (Py.str func)).

Definition function_attributes (func : Py.Tuple) : gmap string Py.Value :=
  let '(filename, funcname) := function_info func in
  <["function.file" := filename]> {[ "function.name" := funcname ]}.

(** The body of the loop of lines 107 to 121. *)
Definition export_function (item : Py.Tuple * Entry) : Tel unit :=
  let '(func, (cc, nc, tt', ct, callers)) := item in
  let attributes := function_attributes func in
  record profile_function_calls (Py.VInt cc) attributes ;;
  record profile_function_time (Py.VFloat (Py.times_1000 tt')) attributes.

Definition export_profile_stats (st : Stats) : Tel unit :=
  start_as_current_span "profile-stats-export" (
    set_attribute "profile.total_calls" (Py.VInt (total_calls st)) ;;
    set_attribute "profile.total_time" (Py.VFloat (total_tt st)) ;;
    for_each (stats st) export_function ;;
    record profile_total_time (Py.VFloat (Py.times_1000 (total_tt st))) ∅).

(** ** The [/profile] endpoint *)

(** The process: what the telemetry SDK has seen and the global
    [profiler]. *)
Record Process (Profile : Type) : Type := MkProcess {
  telemetry : Telemetry;
  profiler : Profile;
}.
Arguments MkProcess {Profile} _ _.
Arguments telemetry {Profile} _.
Arguments profiler {Profile} _.

(** A request handler changes the process and returns a value, or lets an
    exception escape ([None]). *)
Definition Req (Profile A : Type) : Type :=
  Process Profile -> option A * Process Profile.

#[global] Instance Req_ret {Profile} : MRet (Req Profile) :=
  fun A x w => (Some x, w).
#[global] Instance Req_bind {Profile} : MBind (Req Profile) :=
  fun A B f c w =>
    match c w with
    | (Some x, w') => f x w'
    | (None, w') => (None, w')
    end.

(** A call into the telemetry SDK. *)
Definition tel {Profile A} (c : Tel A) : Req Profile A :=
  fun w => let '(x, t) := c (telemetry w) in (Some x, MkProcess t (profiler w)).

(** A call that returns [r], or raises when [r] is [None]. *)
Definition call {Profile A} (r : option A) : Req Profile A :=
  fun w => (r, w).

(** The [with] statement around a handler: the span ends on every exit. *)
Definition in_span {Profile A} (name : string) (body : Req Profile A) : Req Profile A :=
  fun w =>
    let '(_, w0) := tel (start_span name) w in
    let '(r, w1) := body w0 in
    let '(_, w2) := tel end_span w1 in
    (r, w2).

Section Endpoint.

(** [cProfile] and [pstats] belong to the Python standard library; the
    endpoint is stated over what it calls on them.  [File] is the content
    of the temporary file [tmp], [StatsObj] a [pstats.Stats] object, and a
    result [None] stands for a raised exception.  The stream [s] is shared
    by the handler and the [Stats] object: its content is passed to the
    call that writes to it and read back from its result. *)
Context {Profile File StatsObj : Type}.

(** [profiler.dump_stats(tmp.name)]: the profiler afterwards and the file
    written. *)
Variable dump_stats : Profile -> option (Profile * File).
(** [pstats.Stats(tmp.name, stream=s)] *)
Variable Stats_new : File -> option StatsObj.
(** [stats.sort_stats(key)] *)
Variable sort_stats : string -> StatsObj -> option StatsObj.
(** [stats.print_stats()]: from the object and the content of its stream
    to the object and the new content of the stream. *)
Variable print_stats : StatsObj -> string -> option (StatsObj * string).
(** The attributes [total_calls], [total_tt] and [stats] of the object. *)
Variable attrs_of : StatsObj -> Stats.

Definition jsonify (body : gmap string Py.Value) : gmap string Py.Value := body.

(** The call on the global [profiler]. *)
Definition profiler_dump_stats : Req Profile File :=
  fun w =>
    match dump_stats (profiler w) with
    | Some (profiler', tmp) => (Some tmp, MkProcess (telemetry w) profiler')
    | None => (None, w)
    end.

Definition get_profile : Req Profile (gmap string Py.Value) :=
  in_span "profile-generation" (
    tmp ← profiler_dump_stats;
    let s := EmptyString in
    st ← call (Stats_new tmp);
    st ← call (sort_stats "cumulative" st);
    '(st, s) ← call (print_stats st s);
    tel (export_profile_stats (attrs_of st)) ;;
    mret (jsonify (<["total_time" := Py.VFloat (total_tt (attrs_of st))]>
                   (<["total_calls" := Py.VInt (total_calls (attrs_of st))]>
                    {[ "profile_data" := Py.VStr s ]})))).

End Endpoint.

(** ** What one export emits *)

(** The measurements a run of the export step adds, and the span it ends,
    read off a run from the untouched SDK. *)
Definition emitted (st : Stats) : list Measurement :=
  recorded (exec (export_profile_stats st) Otel.empty).

Definition emitted_spans (st : Stats) : list Span :=
  ended (exec (export_profile_stats st) Otel.empty).

Definition function_emitted (item : Py.Tuple * Entry) : list Measurement :=
  recorded (exec (export_function item) Otel.empty).

(** The components [cc] and [tt] of an item, as the loop unpacks them. *)
Definition cc_of (item : Py.Tuple * Entry) : Z :=
  let '(_, (cc, _, _, _, _)) := item in cc.

Definition tt_of (item : Py.Tuple * Entry) : float :=
  let '(_, (_, _, tt', _, _)) := item in tt'.

Definition total_measurement (st : Stats) : Measurement :=
  Measure profile_total_time (Py.VFloat (Py.times_1000 (total_tt st))) ∅.

Definition export_span (st : Stats) : Span :=
  MkSpan "profile-stats-export"
    (<["profile.total_time" := Py.VFloat (total_tt st)]>
       (<["profile.total_calls" := Py.VInt (total_calls st)]> ∅)).

(** The attributes of the fallback branch. *)
Definition fallback_attributes (func : Py.Tuple) : gmap string Py.Value :=
  <["function.file" := Py.VStr "unknown"]> {[ "function.name" := Py.VStr (Py.str func) ]}.

(** ** A small instance of the library, for concrete runs *)

Module StandIn.

(** The collector holds a snapshot, the file a copy of it, and the
    [Stats] object is what the file holds. *)
Definition dump_stats (p : Stats) : option (Stats * Stats) := Some (p, p).

Definition Stats_new (f : Stats) : option Stats := Some f.

Definition cumulative_time (item : Py.Tuple * Entry) : float :=
  let '(_, (_, _, _, ct, _)) := item in ct.

Fixpoint insert_by_time (item : Py.Tuple * Entry) (sorted : list (Py.Tuple * Entry))
  : list (Py.Tuple * Entry) :=
  match sorted with
  | [] => [item]
  | x :: rest =>
      if PrimFloat.ltb (cumulative_time x) (cumulative_time item)
      then item :: sorted
      else x :: insert_by_time item rest
  end.

Definition sort_stats (key : string) (st : Stats) : option Stats :=
  if String.eqb key "cumulative"
  then Some (MkStats (total_calls st) (total_tt st) (foldr insert_by_time [] (stats st)))
  else Some st.

(** One line per function: the string of its key. *)
Definition print_stats (st : Stats) (s : string) : option (Stats * string) :=
  Some (st, s +:+ String.concat ";" (map (fun item => Py.str item.1) (stats st))).

Definition attrs_of (st : Stats) : Stats := st.

Definition builtin_key : Py.Tuple := [Py.AStr "~"; Py.AInt 0].
Definition foo_key : Py.Tuple := [Py.AStr "a.py"; Py.AInt 1; Py.AStr "foo"].
Definition builtin_entry : Entry := (3, 1, 0.5%float, 0.75%float, []).
Definition foo_entry : Entry := (5, 5, 0.1%float, 0.2%float, []).

Definition two_functions : Stats :=
  MkStats 8 0.25 [(foo_key, foo_entry); (builtin_key, builtin_entry)].

Definition handler : Req Stats (gmap string Py.Value) :=
  get_profile dump_stats Stats_new sort_stats print_stats attrs_of.

Definition two_functions_body : gmap string Py.Value :=
  <["total_time" := Py.VFloat 0.25]>
    (<["total_calls" := Py.VInt 8]>
       {[ "profile_data" := Py.VStr "('~', 0);('a.py', 1, 'foo')" ]}).

End StandIn.

(** ** The work unit and the [/] endpoint *)

(** [range(n)] and [sum] on integers. *)
Definition py_range (n : Z) : list Z := map Z.of_nat (seq 0 (Z.to_nat n)).

Definition py_sum (xs : list Z) : Z := fold_left Z.add xs 0.

Arguments py_range : simpl never.
Arguments py_sum : simpl never.

(** [counter.add(amount)], without attributes. *)
Definition counter_add (i : Instrument) (v : Py.Value) : Tel unit := record i v ∅.

Section WorkUnit.

(** The calls on the global [profiler]: [enable] and [disable] return the
    profiler afterwards or raise ([None]); [while_enabled] is what the
    enabled profiler has collected once the work between the two calls has
    run.  The two readings of [time.time()] are arguments of the
    functions. *)
Context {Profile : Type}.
Variable enable : Profile -> option Profile.
Variable disable : Profile -> option Profile.
Variable while_enabled : Profile -> Profile.

Definition on_profiler (f : Profile -> option Profile) : Req Profile unit :=
  fun w =>
    match f (profiler w) with
    | Some profiler' => (Some (), MkProcess (telemetry w) profiler')
    | None => (None, w)
    end.

Definition profile_function (start_time end_time : float) : Req Profile Z :=
  on_profiler enable ;;
  let result := py_sum (py_range 1000000) in
  on_profiler (fun p => Some (while_enabled p)) ;;
  on_profiler disable ;;
  let duration := Py.times_1000 (PrimFloat.sub end_time start_time) in
  tel (record function_duration (Py.VFloat duration) ∅) ;;
  tel (counter_add function_calls (Py.VInt 1)) ;;
  mret result.

Definition hello (start_time end_time : float) : Req Profile string :=
  in_span "hello-operation" (
    result ← profile_function start_time end_time;
    tel (set_attribute "custom.attribute" (Py.VStr "Hello World!")) ;;
    tel (set_attribute "calculation.result" (Py.VInt result)) ;;
    mret "Hello World!"%string).

End WorkUnit.

(** ** Instances of the library calls with failures, for concrete runs *)

Module Strict.

(** A [Stats] constructor that refuses a table without entries. *)
Definition Stats_new (f : Stats) : option Stats :=
  match stats f with
  | [] => None
  | _ => Some f
  end.

Definition handler : Req Stats (gmap string Py.Value) :=
  get_profile StandIn.dump_stats Stats_new StandIn.sort_stats StandIn.print_stats
    StandIn.attrs_of.

Definition no_functions : Stats := MkStats 0 0 [].

(** A collector that is on or off and counts the runs of the work unit;
    switching it on twice fails. *)
Record Collector : Type := MkCollector {
  enabled : bool;
  runs : nat;
}.

Definition enable (c : Collector) : option Collector :=
  if enabled c then None else Some (MkCollector true (runs c)).

Definition disable (c : Collector) : option Collector :=
  Some (MkCollector false (runs c)).

Definition while_enabled (c : Collector) : Collector :=
  MkCollector (enabled c) (S (runs c)).

Definition idle : Collector := MkCollector false 0.
Definition busy : Collector := MkCollector true 0.

End Strict.

(** ** What the standard library does with the table *)

(** The components [nc] and [ct] of an item. *)
Definition nc_of (item : Py.Tuple * Entry) : Z :=
  let '(_, (_, nc, _, _, _)) := item in nc.



Module Library.

(** One entry of the collector as [getstats()] returns it, without its
    sub-entries: [callcount], [reccallcount], [inlinetime], [totaltime]. *)
Definition Collected : Type := Z * Z * float * float.

Definition callcount (e : Py.Tuple * Collected) : Z :=
  let '(_, (callcount, _, _, _)) := e in callcount.

Definition reccallcount (e : Py.Tuple * Collected) : Z :=
  let '(_, (_, reccallcount, _, _)) := e in reccallcount.

(** [cProfile.Profile.snapshot_stats]: [nc] is the count of all calls and
    [cc] is that count less the recursive calls. *)
Definition snapshot_entry (e : Py.Tuple * Collected) : Py.Tuple * Entry :=
  let '(func, (callcount, reccallcount, inlinetime, totaltime)) := e in
  let nc := callcount in
  let cc := nc - reccallcount in
  let tt' := inlinetime in
  let ct := totaltime in
  (func, (cc, nc, tt', ct, [])).

Definition snapshot_stats (entries : list (Py.Tuple * Collected)) : list (Py.Tuple * Entry) :=
  map snapshot_entry entries.

(** Whether [pstats.func_std_string] returns on a key: a built-in
    [('~', 0, name)] needs a string [name], any other key needs three
    components with a number in the middle. *)
Definition has_std_string (func : Py.Tuple) : bool :=
  match func with
  | [a; Py.AInt l; c] =>
      match a, c with
      | Py.AStr f, Py.AInt _ => negb (String.eqb f "~" && (l =? 0))
      | _, _ => true
      end
  | _ => false
  end.

(** [pstats.Stats(file)]: [load_stats] raises on a table without entries;
    [get_top_level_stats] adds up [nc] into [total_calls] and [tt] into
    [total_tt], and needs the standard string of every key. *)
Definition Stats_new (file : list (Py.Tuple * Entry)) : option Stats :=
  match file with
  | [] => None
  | _ =>
      if forallb (fun item => has_std_string item.1) file
      then Some (MkStats (fold_left (fun n item => n + nc_of item) file 0)
                   (fold_left (fun x item => PrimFloat.add x (tt_of item)) file 0%float)
                   file)
      else None
  end.

(** A collector that is its table, and a dump that writes it as it is. *)
Definition dump_table (p : list (Py.Tuple * Entry))
  : option (list (Py.Tuple * Entry) * list (Py.Tuple * Entry)) := Some (p, p).

Definition handler : Req (list (Py.Tuple * Entry)) (gmap string Py.Value) :=
  get_profile dump_table Stats_new StandIn.sort_stats StandIn.print_stats StandIn.attrs_of.


Definition bar_key : Py.Tuple := [Py.AStr "a.py"; Py.AInt 9; Py.AStr "bar"].

(** [foo] was called five times; [bar] was entered once and called itself
    twice more. *)
Definition two_entries : list (Py.Tuple * Collected) :=
  [ (StandIn.foo_key, (5, 0, 0.1%float, 0.2%float));
    (bar_key, (3, 2, 0.5%float, 0.75%float)) ].


End Library.

(** ** Python strings of keys *)

Example str_pair :
  Py.str [Py.AStr "~"; Py.AInt 0] = "('~', 0)"%string.
Proof. reflexivity. Qed.

Example str_single :
  Py.str [Py.AStr "it's"] = String "(" (String Py.dquote ("it's" +:+ String Py.dquote ",)")).
Proof. reflexivity. Qed.

Example str_negative :
  Py.str [Py.AInt (-3); Py.AStr "a\b"; Py.AInt 7; Py.AStr "f"] = "(-3, 'a\\b', 7, 'f')"%string.
Proof. reflexivity. Qed.

(** ** Runs of the export step *)

Example emitted_two_functions :
  emitted StandIn.two_functions =
    [ Measure profile_function_calls (Py.VInt 5)
        (<["function.file" := Py.VStr "a.py"]> {[ "function.name" := Py.VStr "foo" ]});
      Measure profile_function_time (Py.VFloat 100)
        (<["function.file" := Py.VStr "a.py"]> {[ "function.name" := Py.VStr "foo" ]});
      Measure profile_function_calls (Py.VInt 3)
        (<["function.file" := Py.VStr "unknown"]> {[ "function.name" := Py.VStr "('~', 0)" ]});
      Measure profile_function_time (Py.VFloat 500)
        (<["function.file" := Py.VStr "unknown"]> {[ "function.name" := Py.VStr "('~', 0)" ]});
      Measure profile_total_time (Py.VFloat 250) ∅ ].
Proof. reflexivity. Qed.

(** Of the counts 3 and 1 of an entry it is the first that is recorded. *)
Example first_count_recorded :
  map amount (of_instrument profile_function_calls
                (function_emitted (StandIn.builtin_key, StandIn.builtin_entry))) =
    [Py.VInt 3].
Proof. reflexivity. Qed.

(** A run inside the span of the handler leaves that span current. *)
Example export_inside_span :
  active (exec (export_profile_stats StandIn.two_functions)
            (MkTelemetry [MkSpan "profile-generation" ∅] [] [])) =
    [MkSpan "profile-generation" ∅].
Proof. reflexivity. Qed.

Section ExportFacts.

Implicit Types (st : Stats) (t : Telemetry) (item : Py.Tuple * Entry).

Lemma export_function_run item t :
  export_function item t =
    ((), MkTelemetry (active t) (ended t) (recorded t ++ function_emitted item)).
Proof.
  destruct item as [func [[[[cc nc] tt'] ct] callers]].
  unfold export_function, function_emitted, exec, mbind, Tel_bind, record; simpl.
  by rewrite <- app_assoc.
Qed.

Lemma function_emitted_eq item :
  function_emitted item =
    [ Measure profile_function_calls (Py.VInt (cc_of item))
        (function_attributes item.1);
      Measure profile_function_time (Py.VFloat (Py.times_1000 (tt_of item)))
        (function_attributes item.1) ].
Proof. by destruct item as [func [[[[cc nc] tt'] ct] callers]]. Qed.

Lemma for_each_export_run (items : list (Py.Tuple * Entry)) t :
  for_each items export_function t =
    ((), MkTelemetry (active t) (ended t)
           (recorded t ++ concat (map function_emitted items))).
Proof.
  revert t; induction items as [|item items IH]; intros t.
  - simpl. rewrite app_nil_r. by destruct t.
  - simpl. unfold mbind, Tel_bind. rewrite export_function_run, IH. simpl.
    by rewrite <- app_assoc.
Qed.

Lemma export_profile_stats_run st t :
  export_profile_stats st t =
    ((), MkTelemetry (active t) (ended t ++ [export_span st])
           (recorded t ++ concat (map function_emitted (stats st)) ++ [total_measurement st])).
Proof.
  unfold export_profile_stats, start_as_current_span, mbind, Tel_bind, mret, Tel_ret.
  simpl. rewrite for_each_export_run. simpl.
  by rewrite <- app_assoc.
Qed.

Lemma emitted_eq st :
  emitted st = concat (map function_emitted (stats st)) ++ [total_measurement st].
Proof. unfold emitted, exec. by rewrite export_profile_stats_run. Qed.

Lemma emitted_spans_eq st : emitted_spans st = [export_span st].
Proof. unfold emitted_spans, exec. by rewrite export_profile_stats_run. Qed.

(** A run from any state adds to that state what a run from the untouched
    SDK emits. *)
Lemma export_frame st t :
  exec (export_profile_stats st) t =
    MkTelemetry (active t) (ended t ++ emitted_spans st) (recorded t ++ emitted st).
Proof.
  unfold exec at 1. rewrite export_profile_stats_run, emitted_eq, emitted_spans_eq.
  reflexivity.
Qed.

Lemma of_instrument_app i (l k : list Measurement) :
  of_instrument i (l ++ k) = of_instrument i l ++ of_instrument i k.
Proof. apply filter_app. Qed.

Lemma of_instrument_functions i (items : list (Py.Tuple * Entry)) :
  of_instrument i (concat (map function_emitted items)) =
    concat (map (fun item => of_instrument i (function_emitted item)) items).
Proof.
  induction items as [|item items IH]; [done|].
  simpl. by rewrite of_instrument_app, IH.
Qed.

End ExportFacts.


Lemma function_info_fallback (func : Py.Tuple) :
  length func <> 3%nat ->
  function_info func = (Py.VStr "unknown", Py.VStr (Py.str func)).
Proof.
  intros Hlen. unfold function_info, Py.len.
  destruct (decide (Z.of_nat (length func) = 3)) as [Heq|]; [lia|done].
Qed.

Lemma function_attributes_fallback (func : Py.Tuple) :
  length func <> 3%nat -> function_attributes func = fallback_attributes func.
Proof.
  intros Hlen. unfold function_attributes. by rewrite function_info_fallback.
Qed.


(** ** Properties of the export step *)

(** C1. One call of the export step on a snapshot with [n] function records
    adds exactly [2 * n + 1] measurements to what was recorded before: [n]
    on the call-count histogram, [n] on the function-time histogram and one
    on the total-time histogram, each record giving exactly one call-count
    and one time measurement.  Nothing is assumed of [n], so this covers the
    snapshot without records. *)
Theorem export_observation_count (st : Stats) (t : Telemetry) :
  let n := length (stats st) in
  recorded (exec (export_profile_stats st) t) = recorded t ++ emitted st
  /\ length (emitted st) = (2 * n + 1)%nat
  /\ length (of_instrument profile_function_calls (emitted st)) = n
  /\ length (of_instrument profile_function_time (emitted st)) = n
  /\ length (of_instrument profile_total_time (emitted st)) = 1%nat
  /\ Forall (fun item =>
       length (function_emitted item) = 2%nat
       /\ length (of_instrument profile_function_calls (function_emitted item)) = 1%nat
       /\ length (of_instrument profile_function_time (function_emitted item)) = 1%nat
       /\ of_instrument profile_total_time (function_emitted item) = [])
     (stats st).
Proof.
  intros n. split; [by rewrite export_frame|].
  rewrite emitted_eq, !of_instrument_app, !of_instrument_functions, !length_app.
  subst n. generalize (stats st) as items.
  induction items as [|item items (Hall & Hc & Ht & Htot & Hper)].
  - repeat split; constructor.
  - assert (Hitem : function_emitted item =
      [ Measure profile_function_calls (Py.VInt (cc_of item))
          (function_attributes item.1);
        Measure profile_function_time (Py.VFloat (Py.times_1000 (tt_of item)))
          (function_attributes item.1) ]) by apply function_emitted_eq.
    simpl in *. rewrite !length_app, Hitem. simpl.
    repeat split; try lia.
    + constructor; [by rewrite Hitem | exact Hper].
Qed.

Lemma call_count_measurements (st : Stats) :
  of_instrument profile_function_calls (emitted st) =
    map (fun item =>
           Measure profile_function_calls (Py.VInt (cc_of item))
             (function_attributes item.1))
        (stats st).
Proof.
  rewrite emitted_eq, of_instrument_app, of_instrument_functions.
  simpl. rewrite app_nil_r.
  induction (stats st) as [|item items IH]; [done|].
  simpl. by rewrite IH, function_emitted_eq.
Qed.

(** C2. The measurement made on the call-count histogram for a record is
    its first component [cc].  In the records of a collector's snapshot the
    count of all calls is the second component [nc], and [cc] is that count
    less the recursive calls: what is measured is the primitive count, not
    the total.  For a function entered once that called itself twice more
    the measurement is 1, while [total_calls], which the same export reports
    as [profile.total_calls], counts its 3 calls. *)
Theorem call_count_observation_primitive
    (entries : list (Py.Tuple * Library.Collected)) (c : Z) (t : float) :
  map amount (of_instrument profile_function_calls
                (emitted (MkStats c t (Library.snapshot_stats entries)))) =
    map (fun e => Py.VInt (Library.callcount e - Library.reccallcount e)) entries
  /\ map nc_of (Library.snapshot_stats entries) = map Library.callcount entries
  /\ exists st,
       Library.Stats_new (Library.snapshot_stats Library.two_entries) = Some st
       /\ total_calls st = 8
       /\ map nc_of (stats st) = [5; 3]
       /\ map amount (of_instrument profile_function_calls (emitted st)) =
            [Py.VInt 5; Py.VInt 1].
Proof.
  split; [|split].
  - rewrite call_count_measurements. simpl.
    induction entries as [|[func [[[callcount reccallcount] inlinetime] totaltime]] entries IH];
      [done|].
    simpl. by rewrite IH.
  - induction entries as [|[func [[[callcount reccallcount] inlinetime] totaltime]] entries IH];
      [done|].
    simpl. by rewrite IH.
  - eexists. split; [reflexivity|]. by repeat split.
Qed.

(** C3. The snapshot with [total_calls = 5], [total_tt = 0.25] and the single
    record [(5, 5, 0.1, 0.2, callers)] of function [foo] of file [a.py], at
    any line: the span of the export carries [profile.total_calls = 5] and
    [profile.total_time = 0.25]; the measurements are 5 on the call-count
    histogram and 100 on the function-time histogram, both under
    [function.name = foo] and [function.file = a.py], and 250 on the
    total-time histogram without attributes.  The 250 comes from [total_tt]:
    it is the same whatever records the snapshot holds. *)
Theorem export_scenario_foo (lineno : Py.Atom) (callers : Callers) :
  let foo := <["function.file" := Py.VStr "a.py"]> {[ "function.name" := Py.VStr "foo" ]} in
  let st := MkStats 5 0.25
              [([Py.AStr "a.py"; lineno; Py.AStr "foo"], (5, 5, 0.1%float, 0.2%float, callers))] in
  exec (export_profile_stats st) Otel.empty =
    MkTelemetry []
      [MkSpan "profile-stats-export"
         (<["profile.total_time" := Py.VFloat 0.25]>
            {[ "profile.total_calls" := Py.VInt 5 ]})]
      [Measure profile_function_calls (Py.VInt 5) foo;
       Measure profile_function_time (Py.VFloat 100) foo;
       Measure profile_total_time (Py.VFloat 250) ∅]
  /\ (forall records,
        of_instrument profile_total_time (emitted (MkStats 5 0.25 records)) =
          [Measure profile_total_time (Py.VFloat 250) ∅]).
Proof.
  split; [reflexivity|].
  intros records.
  rewrite emitted_eq, of_instrument_app, of_instrument_functions. simpl.
  induction records as [|item items IH]; [reflexivity|].
  simpl. by rewrite function_emitted_eq.
Qed.

(** C5. The export step is a function of the snapshot alone: there are one
    span and one list of measurements, fixed by the snapshot, that every run
    adds to whatever the SDK held.  Two runs in a row on the same snapshot
    therefore add the same span attributes and the same measurements (the
    same list, hence the same multiset).  The snapshot is an argument of the
    step and the step returns nothing but the telemetry: it cannot change
    it. *)
Theorem export_twice_same (st : Stats) :
  exists (sp : Span) (ms : list Measurement),
    span_attributes sp =
      <["profile.total_time" := Py.VFloat (total_tt st)]>
        {[ "profile.total_calls" := Py.VInt (total_calls st) ]}
    /\ (forall t, exec (export_profile_stats st) t =
                  MkTelemetry (active t) (ended t ++ [sp]) (recorded t ++ ms))
    /\ (forall t, exec (export_profile_stats st) (exec (export_profile_stats st) t) =
                  MkTelemetry (active t) ((ended t ++ [sp]) ++ [sp]) ((recorded t ++ ms) ++ ms)).
Proof.
  exists (export_span st), (emitted st).
  split; [done|].
  assert (Hrun : forall t, exec (export_profile_stats st) t =
            MkTelemetry (active t) (ended t ++ [export_span st]) (recorded t ++ emitted st)).
  { intros t. by rewrite export_frame, emitted_spans_eq. }
  split; [exact Hrun|].
  intros t. by rewrite !Hrun.
Qed.






(** ** Properties of the endpoint *)

Ltac run_handler :=
  unfold get_profile, in_span, mbind, Req_bind, profiler_dump_stats, call, tel;
  simpl.

Section EndpointFacts.

Context {Profile File StatsObj : Type}.
Variable dump_stats : Profile -> option (Profile * File).
Variable Stats_new : File -> option StatsObj.
Variable sort_stats : string -> StatsObj -> option StatsObj.
Variable print_stats : StatsObj -> string -> option (StatsObj * string).
Variable attrs_of : StatsObj -> Stats.

Local Abbreviation handler :=
  (get_profile dump_stats Stats_new sort_stats print_stats attrs_of).

(** The handler catches nothing: when [pstats.Stats] raises, the request
    fails, after the span of the handler has ended. *)
Lemma get_profile_propagates (w : Process Profile) profiler' tmp :
  dump_stats (profiler w) = Some (profiler', tmp) ->
  Stats_new tmp = None ->
  handler w =
    (None, MkProcess
             (MkTelemetry (active (telemetry w))
                (ended (telemetry w) ++ [MkSpan "profile-generation" ∅])
                (recorded (telemetry w)))
             profiler').
Proof.
  intros Hdump Hnew.
  run_handler. by rewrite Hdump, Hnew.
Qed.

(** The handler leaves the profiler as [dump_stats] left it. *)
Lemma get_profile_profiler (w : Process Profile) profiler' tmp :
  dump_stats (profiler w) = Some (profiler', tmp) ->
  profiler (handler w).2 = profiler'.
Proof.
  intros Hdump.
  run_handler. rewrite Hdump.
  destruct (Stats_new tmp) as [st0|]; [|done].
  destruct (sort_stats "cumulative" st0) as [st1|]; [|done].
  destruct (print_stats st1 "") as [[st2 text]|]; [|done].
  simpl. by rewrite export_profile_stats_run.
Qed.

(** When the four calls return, so does the handler. *)
Lemma get_profile_returns (w : Process Profile) profiler' tmp st0 st1 st2 text :
  dump_stats (profiler w) = Some (profiler', tmp) ->
  Stats_new tmp = Some st0 ->
  sort_stats "cumulative" st0 = Some st1 ->
  print_stats st1 EmptyString = Some (st2, text) ->
  handler w =
    (Some (<["total_time" := Py.VFloat (total_tt (attrs_of st2))]>
             (<["total_calls" := Py.VInt (total_calls (attrs_of st2))]>
                {[ "profile_data" := Py.VStr text ]})),
     MkProcess
       (MkTelemetry (active (telemetry w))
          (ended (telemetry w) ++ [export_span (attrs_of st2); MkSpan "profile-generation" ∅])
          (recorded (telemetry w) ++ emitted (attrs_of st2)))
       profiler').
Proof.
  intros Hdump Hnew Hsort Hprint.
  run_handler. rewrite Hdump, Hnew. simpl. rewrite Hsort, Hprint. simpl.
  rewrite export_profile_stats_run, emitted_eq. simpl.
  by rewrite <- app_assoc.
Qed.


End EndpointFacts.




Section EmptyCollector.

Context {Profile : Type}.
Variable dump_stats : Profile -> option (Profile * list (Py.Tuple * Entry)).
Variable sort_stats : string -> Stats -> option Stats.
Variable print_stats : Stats -> string -> option (Stats * string).
Variable attrs_of : Stats -> Stats.

(** C4. When the collector has recorded no function, so that the dump holds
    a table without entries, no snapshot is built: the [Stats] constructor
    raises on that table, the handler catches nothing, and the request ends
    without a body and without any measurement. *)
Theorem empty_collector_request_fails (w : Process Profile) (profiler' : Profile) :
  dump_stats (profiler w) = Some (profiler', []) ->
  Library.Stats_new [] = None
  /\ (get_profile dump_stats Library.Stats_new sort_stats print_stats attrs_of w).1 = None
  /\ recorded (telemetry
       (get_profile dump_stats Library.Stats_new sort_stats print_stats attrs_of w).2) =
     recorded (telemetry w).
Proof.
  intros Hdump. split; [done|].
  by rewrite (get_profile_propagates dump_stats Library.Stats_new sort_stats print_stats
                attrs_of w profiler' []).
Qed.

End EmptyCollector.

Lemma empty_collector_request_fails_witness :
  Library.dump_table [] = Some ([], [])
  /\ (Library.handler (MkProcess Otel.empty [])).1 = None.
Proof.
  assert (Hdump : Library.dump_table [] = Some ([], [])) by reflexivity.
  split; [exact Hdump|].
  exact (proj1 (proj2 (empty_collector_request_fails Library.dump_table StandIn.sort_stats
                         StandIn.print_stats StandIn.attrs_of
                         (MkProcess Otel.empty []) [] Hdump))).
Defined.

(** ** More on the export step *)

Lemma concat_map_perm {A B} (f : A -> list B) (l k : list A) :
  l ≡ₚ k -> concat (map f l) ≡ₚ concat (map f k).
Proof.
  induction 1 as [|x l k _ IH|x y l|l k m _ IH1 _ IH2]; simpl.
  - done.
  - by rewrite IH.
  - rewrite !app_assoc. f_equiv. apply Permutation_app_comm.
  - by rewrite IH1.
Qed.

Lemma function_attributes_dom (func : Py.Tuple) :
  dom (function_attributes func) = {[ "function.name"; "function.file" ]}.
Proof.
  unfold function_attributes. destruct (function_info func) as [filename funcname].
  set_solver.
Qed.

(** X1. The measurements of one export come in the order of the table: for
    each record its call count and then its time, both under the attributes
    of its key, and after the last record the total time, which is the last
    measurement whatever the table holds. *)
Theorem export_emission_order (st : Stats) :
  emitted st =
    concat (map (fun item =>
                   [ Measure profile_function_calls (Py.VInt (cc_of item))
                       (function_attributes item.1);
                     Measure profile_function_time
                       (Py.VFloat (Py.times_1000 (tt_of item)))
                       (function_attributes item.1) ])
                (stats st))
    ++ [Measure profile_total_time (Py.VFloat (Py.times_1000 (total_tt st))) ∅]
  /\ last (emitted st) =
       Some (Measure profile_total_time (Py.VFloat (Py.times_1000 (total_tt st))) ∅).
Proof.
  rewrite emitted_eq. split; [|apply last_snoc].
  f_equal. induction (stats st) as [|item items IH]; [done|].
  simpl. by rewrite IH, function_emitted_eq.
Qed.

(** X2. The time recorded for a record is its third component [tt] times
    1000.  The second and fourth components and the callers table are not
    read: two records with the same key, [cc] and [tt] give the same two
    measurements. *)
Theorem function_time_observation (st : Stats) :
  of_instrument profile_function_time (emitted st) =
    map (fun item =>
           Measure profile_function_time (Py.VFloat (Py.times_1000 (tt_of item)))
             (function_attributes item.1))
        (stats st)
  /\ (forall func cc tt' nc ct callers nc' ct' callers',
        function_emitted (func, (cc, nc, tt', ct, callers)) =
        function_emitted (func, (cc, nc', tt', ct', callers'))).
Proof.
  split; [|done].
  rewrite emitted_eq, of_instrument_app, of_instrument_functions.
  simpl. rewrite app_nil_r.
  induction (stats st) as [|item items IH]; [done|].
  simpl. by rewrite IH, function_emitted_eq.
Qed.

(** X3. The export step records on the three profile histograms only,
    never on [function.duration] or [function.calls]; the one span it ends
    is named [profile-stats-export] and carries exactly the keys
    [profile.total_calls] and [profile.total_time]. *)
Theorem export_instruments (st : Stats) :
  of_instrument function_duration (emitted st) = []
  /\ of_instrument function_calls (emitted st) = []
  /\ exists sp, emitted_spans st = [sp]
       /\ span_name sp = "profile-stats-export"%string
       /\ dom (span_attributes sp) = {[ "profile.total_calls"; "profile.total_time" ]}.
Proof.
  rewrite emitted_eq, !of_instrument_app, !of_instrument_functions.
  assert (Hnone : forall i, i = function_duration \/ i = function_calls ->
            concat (map (fun item => of_instrument i (function_emitted item)) (stats st)) = []).
  { intros i Hi. induction (stats st) as [|item items IH]; [done|].
    simpl. rewrite IH, function_emitted_eq. by destruct Hi as [-> | ->]. }
  rewrite !Hnone by auto.
  split; [done|]. split; [done|].
  exists (export_span st). rewrite emitted_spans_eq.
  split; [done|]. split; [done|]. simpl. set_solver.
Qed.

(** X4. Every measurement of a record carries exactly the two keys
    [function.name] and [function.file], whatever the shape of its key; the
    total-time measurement carries none. *)
Theorem export_attribute_keys (st : Stats) :
  Forall (fun m =>
            dom (attributes m) =
              if decide (instrument m = profile_total_time) then ∅
              else {[ "function.name"; "function.file" ]})
         (emitted st).
Proof.
  rewrite emitted_eq. apply Forall_app. split.
  - induction (stats st) as [|item items IH]; [constructor|].
    simpl. apply Forall_app. split; [|exact IH].
    rewrite function_emitted_eq.
    apply Forall_cons; split; [apply function_attributes_dom|].
    apply Forall_cons; split; [apply function_attributes_dom|constructor].
  - apply Forall_cons; split; [|constructor]. simpl. set_solver.
Qed.

(** X5. The attributes do not tell a fallback from a real file: a key that
    does not have three components gives the same attributes, and so the
    same two measurements, as the three-component key whose file is the
    string [unknown] and whose function name is the string of that key, at
    any line. *)
Theorem fallback_collides (func : Py.Tuple) (lineno : Py.Atom) (entry : Entry) :
  length func <> 3%nat ->
  function_attributes [Py.AStr "unknown"; lineno; Py.AStr (Py.str func)] =
    function_attributes func
  /\ function_emitted ([Py.AStr "unknown"; lineno; Py.AStr (Py.str func)], entry) =
     function_emitted (func, entry).
Proof.
  intros Hlen.
  assert (Hattrs : function_attributes [Py.AStr "unknown"; lineno; Py.AStr (Py.str func)] =
                   function_attributes func).
  { by rewrite (function_attributes_fallback func). }
  split; [exact Hattrs|].
  rewrite !function_emitted_eq. simpl. by rewrite Hattrs.
Qed.

Lemma fallback_collides_witness :
  length StandIn.builtin_key <> 3%nat
  /\ function_attributes [Py.AStr "unknown"; Py.AInt 12; Py.AStr "('~', 0)"] =
     function_attributes StandIn.builtin_key.
Proof.
  assert (Hlen : length StandIn.builtin_key <> 3%nat) by (simpl; lia).
  split; [exact Hlen|].
  exact (proj1 (fallback_collides StandIn.builtin_key (Py.AInt 12) StandIn.builtin_entry Hlen)).
Defined.

(** X6. The order of the table does not matter to what is measured: two
    snapshots with the same [total_tt] whose tables are permutations of one
    another give the same measurements up to order. *)
Theorem export_order_insensitive (st st' : Stats) :
  stats st ≡ₚ stats st' ->
  total_tt st = total_tt st' ->
  emitted st ≡ₚ emitted st'.
Proof.
  intros Hperm Htt. rewrite !emitted_eq.
  unfold total_measurement. rewrite Htt.
  f_equiv. by apply concat_map_perm.
Qed.

Lemma export_order_insensitive_witness :
  emitted StandIn.two_functions ≡ₚ
  emitted (MkStats 8 0.25 [(StandIn.builtin_key, StandIn.builtin_entry);
                           (StandIn.foo_key, StandIn.foo_entry)]).
Proof.
  apply (export_order_insensitive StandIn.two_functions
           (MkStats 8 0.25 [(StandIn.builtin_key, StandIn.builtin_entry);
                            (StandIn.foo_key, StandIn.foo_entry)])).
  - simpl. apply perm_swap.
  - reflexivity.
Defined.

(** ** More on the [/profile] endpoint *)

Section ProfileRequestFacts.

Context {Profile File StatsObj : Type}.
Variable dump_stats : Profile -> option (Profile * File).
Variable Stats_new : File -> option StatsObj.
Variable sort_stats : string -> StatsObj -> option StatsObj.
Variable print_stats : StatsObj -> string -> option (StatsObj * string).
Variable attrs_of : StatsObj -> Stats.

Local Abbreviation handler :=
  (get_profile dump_stats Stats_new sort_stats print_stats attrs_of).

(** X7. A request on [/profile] that ends in an exception (one of the calls
    on the profiler or on the [Stats] object raised; the handler catches
    nothing) has exported nothing: no measurement is recorded, the span of
    the export step was never started, and the span [profile-generation] of
    the handler has ended, without attributes, leaving the current spans as
    they were. *)
Theorem profile_request_failure (w : Process Profile) :
  (handler w).1 = None ->
  recorded (telemetry (handler w).2) = recorded (telemetry w)
  /\ ended (telemetry (handler w).2) =
       ended (telemetry w) ++ [MkSpan "profile-generation" ∅]
  /\ active (telemetry (handler w).2) = active (telemetry w).
Proof.
  destruct (dump_stats (profiler w)) as [[profiler' tmp]|] eqn:Hdump; cycle 1.
  { run_handler. by rewrite Hdump. }
  destruct (Stats_new tmp) as [st0|] eqn:Hnew; cycle 1.
  { by rewrite (get_profile_propagates _ _ _ _ _ w profiler' tmp). }
  destruct (sort_stats "cumulative" st0) as [st1|] eqn:Hsort; cycle 1.
  { run_handler. by rewrite Hdump, Hnew; simpl; rewrite Hsort. }
  destruct (print_stats st1 EmptyString) as [[st2 text]|] eqn:Hprint; cycle 1.
  { run_handler. by rewrite Hdump, Hnew; simpl; rewrite Hsort, Hprint. }
  by rewrite (get_profile_returns _ _ _ _ _ w profiler' tmp st0 st1 st2 text).
Qed.

(** X8. A request on [/profile] that returns a body has ended two spans, the
    span of the export step and then the span [profile-generation] of the
    handler, which has no attributes, and has left the current spans as they
    were.  The totals of the body are the values of the attributes
    [profile.total_calls] and [profile.total_time] of the export span, and
    the profiler is as [dump_stats] left it. *)
Theorem profile_request_success (w : Process Profile) (body : gmap string Py.Value) :
  (handler w).1 = Some body ->
  exists sp profiler' tmp,
    ended (telemetry (handler w).2) =
      ended (telemetry w) ++ [sp; MkSpan "profile-generation" ∅]
    /\ span_name sp = "profile-stats-export"%string
    /\ body !! "total_calls" = span_attributes sp !! "profile.total_calls"
    /\ body !! "total_time" = span_attributes sp !! "profile.total_time"
    /\ active (telemetry (handler w).2) = active (telemetry w)
    /\ dump_stats (profiler w) = Some (profiler', tmp)
    /\ profiler (handler w).2 = profiler'.
Proof.
  destruct (dump_stats (profiler w)) as [[profiler' tmp]|] eqn:Hdump; cycle 1.
  { run_handler. by rewrite Hdump. }
  destruct (Stats_new tmp) as [st0|] eqn:Hnew; cycle 1.
  { by rewrite (get_profile_propagates _ _ _ _ _ w profiler' tmp). }
  destruct (sort_stats "cumulative" st0) as [st1|] eqn:Hsort; cycle 1.
  { run_handler. by rewrite Hdump, Hnew; simpl; rewrite Hsort. }
  destruct (print_stats st1 EmptyString) as [[st2 text]|] eqn:Hprint; cycle 1.
  { run_handler. by rewrite Hdump, Hnew; simpl; rewrite Hsort, Hprint. }
  rewrite (get_profile_returns _ _ _ _ _ w profiler' tmp st0 st1 st2 text) by done.
  simpl. intros [= <-].
  exists (export_span (attrs_of st2)), profiler', tmp.
  by repeat split.
Qed.

End ProfileRequestFacts.

Lemma profile_request_failure_witness :
  (Strict.handler (MkProcess Otel.empty Strict.no_functions)).1 = None
  /\ recorded (telemetry (Strict.handler (MkProcess Otel.empty Strict.no_functions)).2) = [].
Proof.
  assert (Hrun : (Strict.handler (MkProcess Otel.empty Strict.no_functions)).1 = None)
    by reflexivity.
  split; [exact Hrun|].
  exact (proj1 (profile_request_failure StandIn.dump_stats Strict.Stats_new
                  StandIn.sort_stats StandIn.print_stats StandIn.attrs_of _ Hrun)).
Defined.

Lemma profile_request_success_witness :
  (StandIn.handler (MkProcess Otel.empty StandIn.two_functions)).1 =
    Some StandIn.two_functions_body
  /\ exists sp profiler' tmp,
       ended (telemetry (StandIn.handler (MkProcess Otel.empty StandIn.two_functions)).2) =
         ended Otel.empty ++ [sp; MkSpan "profile-generation" ∅]
       /\ span_name sp = "profile-stats-export"%string
       /\ StandIn.two_functions_body !! "total_calls" = span_attributes sp !! "profile.total_calls"
       /\ StandIn.two_functions_body !! "total_time" = span_attributes sp !! "profile.total_time"
       /\ active (telemetry (StandIn.handler (MkProcess Otel.empty StandIn.two_functions)).2) =
          active Otel.empty
       /\ StandIn.dump_stats StandIn.two_functions = Some (profiler', tmp)
       /\ profiler (StandIn.handler (MkProcess Otel.empty StandIn.two_functions)).2 = profiler'.
Proof.
  assert (Hrun : (StandIn.handler (MkProcess Otel.empty StandIn.two_functions)).1 =
                 Some StandIn.two_functions_body) by reflexivity.
  split; [exact Hrun|].
  exact (profile_request_success StandIn.dump_stats StandIn.Stats_new
           StandIn.sort_stats StandIn.print_stats StandIn.attrs_of _ _ Hrun).
Defined.

(** ** The work unit and the [/] endpoint *)

Lemma py_sum_snoc (xs : list Z) (x : Z) : py_sum (xs ++ [x]) = py_sum xs + x.
Proof. unfold py_sum. by rewrite fold_left_app. Qed.

Lemma py_sum_below (m : nat) :
  2 * py_sum (map Z.of_nat (seq 0 m)) = Z.of_nat m * (Z.of_nat m - 1).
Proof.
  induction m as [|m IH]; [done|].
  rewrite seq_S, map_app. simpl map. rewrite py_sum_snoc. lia.
Qed.

(** [sum(range(n))] is [n * (n - 1) / 2], and 0 when [n] is not positive. *)
Lemma py_sum_range (n : Z) :
  py_sum (py_range n) = Z.max 0 n * (Z.max 0 n - 1) / 2.
Proof.
  unfold py_range. pose proof (py_sum_below (Z.to_nat n)) as Hsum.
  replace (Z.of_nat (Z.to_nat n)) with (Z.max 0 n) in Hsum by lia.
  apply Z.div_unique_exact; lia.
Qed.

Lemma work_result : py_sum (py_range 1000000) = 499999500000.
Proof. rewrite py_sum_range. reflexivity. Qed.

Ltac run_work :=
  unfold hello, profile_function, in_span, on_profiler, counter_add, mbind, Req_bind,
    mret, Req_ret, tel, record, start_span, end_span, set_attribute;
  simpl.

Section WorkUnitFacts.

Context {Profile : Type}.
Variable enable : Profile -> option Profile.
Variable disable : Profile -> option Profile.
Variable while_enabled : Profile -> Profile.

Local Abbreviation work := (profile_function enable disable while_enabled).
Local Abbreviation root := (hello enable disable while_enabled).

Lemma profile_function_run (w : Process Profile) start_time end_time p1 p2 :
  enable (profiler w) = Some p1 ->
  disable (while_enabled p1) = Some p2 ->
  work start_time end_time w =
    (Some 499999500000,
     MkProcess
       (MkTelemetry (active (telemetry w)) (ended (telemetry w))
          (recorded (telemetry w) ++
             [ Measure function_duration
                 (Py.VFloat (Py.times_1000 (PrimFloat.sub end_time start_time))) ∅;
               Measure function_calls (Py.VInt 1) ∅ ]))
       p2).
Proof.
  intros Hen Hdis. rewrite <- work_result.
  run_work. rewrite Hen. simpl. rewrite Hdis. simpl.
  by rewrite <- app_assoc.
Qed.

(** X9. Whenever [enable] and [disable] return, the work unit returns
    [sum(range(1000000))], which is 499999500000, whatever the two clock
    readings, the profiler and the telemetry are. *)
Theorem work_unit_result (w : Process Profile) start_time end_time p1 p2 :
  enable (profiler w) = Some p1 ->
  disable (while_enabled p1) = Some p2 ->
  (work start_time end_time w).1 = Some (py_sum (py_range 1000000))
  /\ py_sum (py_range 1000000) = 499999500000.
Proof.
  intros Hen Hdis.
  rewrite (profile_function_run w start_time end_time p1 p2 Hen Hdis).
  by rewrite work_result.
Qed.

(** X10. A run of the work unit in which [enable] and [disable] return
    records exactly two measurements, in this order: the difference of the
    two clock readings times 1000 on [function.duration] and 1 on
    [function.calls], both without attributes.  It records nothing on the
    profile histograms, touches no span, and leaves the profiler as
    [disable] returned it. *)
Theorem work_unit_measurements (w : Process Profile) start_time end_time p1 p2 :
  enable (profiler w) = Some p1 ->
  disable (while_enabled p1) = Some p2 ->
  (work start_time end_time w).2 =
    MkProcess
      (MkTelemetry (active (telemetry w)) (ended (telemetry w))
         (recorded (telemetry w) ++
            [ Measure function_duration
                (Py.VFloat (Py.times_1000 (PrimFloat.sub end_time start_time))) ∅;
              Measure function_calls (Py.VInt 1) ∅ ]))
      p2.
Proof.
  intros Hen Hdis.
  by rewrite (profile_function_run w start_time end_time p1 p2 Hen Hdis).
Qed.

(** X11. A run of the work unit that ends in an exception has recorded
    nothing and touched no span.  Either [enable] raised and the profiler is
    as it was, or [disable] raised and the profiler is left as it was while
    enabled: nothing in the function switches it off on that path. *)
Theorem work_unit_failure (w : Process Profile) start_time end_time :
  (work start_time end_time w).1 = None ->
  telemetry (work start_time end_time w).2 = telemetry w
  /\ (enable (profiler w) = None /\ profiler (work start_time end_time w).2 = profiler w
      \/ exists p1, enable (profiler w) = Some p1
           /\ disable (while_enabled p1) = None
           /\ profiler (work start_time end_time w).2 = while_enabled p1).
Proof.
  destruct (enable (profiler w)) as [p1|] eqn:Hen; cycle 1.
  { run_work. rewrite Hen. simpl. intros _. split; [done|]. by left. }
  destruct (disable (while_enabled p1)) as [p2|] eqn:Hdis.
  { by rewrite (profile_function_run w start_time end_time p1 p2). }
  run_work. rewrite Hen. simpl. rewrite Hdis. simpl. intros _.
  split; [done|]. right. by exists p1.
Qed.

(** X12. A request on [/] in which [enable] and [disable] return answers
    [Hello World!], records the two measurements of the work unit, and ends
    one span, [hello-operation], with exactly the attributes
    [custom.attribute = Hello World!] and
    [calculation.result = 499999500000]; the current spans are as before. *)
Theorem hello_success (w : Process Profile) start_time end_time p1 p2 :
  enable (profiler w) = Some p1 ->
  disable (while_enabled p1) = Some p2 ->
  root start_time end_time w =
    (Some "Hello World!"%string,
     MkProcess
       (MkTelemetry (active (telemetry w))
          (ended (telemetry w) ++
             [ MkSpan "hello-operation"
                 (<["calculation.result" := Py.VInt 499999500000]>
                    {[ "custom.attribute" := Py.VStr "Hello World!" ]}) ])
          (recorded (telemetry w) ++
             [ Measure function_duration
                 (Py.VFloat (Py.times_1000 (PrimFloat.sub end_time start_time))) ∅;
               Measure function_calls (Py.VInt 1) ∅ ]))
       p2).
Proof.
  intros Hen Hdis. rewrite <- work_result.
  run_work. rewrite Hen. simpl. rewrite Hdis. simpl.
  by rewrite <- app_assoc.
Qed.

(** X13. A request on [/] that ends in an exception has recorded nothing;
    its span [hello-operation] has ended without attributes, since neither
    [set_attribute] was reached, and the current spans are as before. *)
Theorem hello_failure (w : Process Profile) start_time end_time :
  (root start_time end_time w).1 = None ->
  recorded (telemetry (root start_time end_time w).2) = recorded (telemetry w)
  /\ ended (telemetry (root start_time end_time w).2) =
       ended (telemetry w) ++ [MkSpan "hello-operation" ∅]
  /\ active (telemetry (root start_time end_time w).2) = active (telemetry w).
Proof.
  destruct (enable (profiler w)) as [p1|] eqn:Hen; cycle 1.
  { run_work. by rewrite Hen. }
  destruct (disable (while_enabled p1)) as [p2|] eqn:Hdis.
  { run_work. rewrite Hen. simpl. by rewrite Hdis. }
  run_work. rewrite Hen. simpl. by rewrite Hdis.
Qed.

End WorkUnitFacts.

Lemma work_unit_result_witness :
  Strict.enable Strict.idle = Some (Strict.MkCollector true 0)
  /\ Strict.disable (Strict.while_enabled (Strict.MkCollector true 0)) =
       Some (Strict.MkCollector false 1)
  /\ (profile_function Strict.enable Strict.disable Strict.while_enabled 10 10.25
        (MkProcess Otel.empty Strict.idle)).1 = Some (py_sum (py_range 1000000)).
Proof.
  assert (Hen : Strict.enable Strict.idle = Some (Strict.MkCollector true 0)) by reflexivity.
  assert (Hdis : Strict.disable (Strict.while_enabled (Strict.MkCollector true 0)) =
                 Some (Strict.MkCollector false 1)) by reflexivity.
  split; [exact Hen|]. split; [exact Hdis|].
  exact (proj1 (work_unit_result Strict.enable Strict.disable Strict.while_enabled
                  (MkProcess Otel.empty Strict.idle) 10 10.25 _ _ Hen Hdis)).
Defined.

Lemma work_unit_measurements_witness :
  Strict.enable Strict.idle = Some (Strict.MkCollector true 0)
  /\ Strict.disable (Strict.while_enabled (Strict.MkCollector true 0)) =
       Some (Strict.MkCollector false 1)
  /\ (profile_function Strict.enable Strict.disable Strict.while_enabled 10 10.25
        (MkProcess Otel.empty Strict.idle)).2 =
     MkProcess
       (MkTelemetry [] []
          [ Measure function_duration (Py.VFloat 250) ∅;
            Measure function_calls (Py.VInt 1) ∅ ])
       (Strict.MkCollector false 1).
Proof.
  assert (Hen : Strict.enable Strict.idle = Some (Strict.MkCollector true 0)) by reflexivity.
  assert (Hdis : Strict.disable (Strict.while_enabled (Strict.MkCollector true 0)) =
                 Some (Strict.MkCollector false 1)) by reflexivity.
  split; [exact Hen|]. split; [exact Hdis|].
  exact (work_unit_measurements Strict.enable Strict.disable Strict.while_enabled
           (MkProcess Otel.empty Strict.idle) 10 10.25 _ _ Hen Hdis).
Defined.

Lemma work_unit_failure_witness :
  (profile_function Strict.enable Strict.disable Strict.while_enabled 10 10.25
     (MkProcess Otel.empty Strict.busy)).1 = None
  /\ telemetry (profile_function Strict.enable Strict.disable Strict.while_enabled 10 10.25
                  (MkProcess Otel.empty Strict.busy)).2 = Otel.empty.
Proof.
  assert (Hrun : (profile_function Strict.enable Strict.disable Strict.while_enabled 10 10.25
                    (MkProcess Otel.empty Strict.busy)).1 = None) by reflexivity.
  split; [exact Hrun|].
  exact (proj1 (work_unit_failure Strict.enable Strict.disable Strict.while_enabled _ _ _ Hrun)).
Defined.

Lemma hello_success_witness :
  Strict.enable Strict.idle = Some (Strict.MkCollector true 0)
  /\ Strict.disable (Strict.while_enabled (Strict.MkCollector true 0)) =
       Some (Strict.MkCollector false 1)
  /\ (hello Strict.enable Strict.disable Strict.while_enabled 10 10.25
        (MkProcess Otel.empty Strict.idle)).1 = Some "Hello World!"%string.
Proof.
  assert (Hen : Strict.enable Strict.idle = Some (Strict.MkCollector true 0)) by reflexivity.
  assert (Hdis : Strict.disable (Strict.while_enabled (Strict.MkCollector true 0)) =
                 Some (Strict.MkCollector false 1)) by reflexivity.
  split; [exact Hen|]. split; [exact Hdis|].
  exact (f_equal fst (hello_success Strict.enable Strict.disable Strict.while_enabled
                        (MkProcess Otel.empty Strict.idle) 10 10.25 _ _ Hen Hdis)).
Defined.

Lemma hello_failure_witness :
  (hello Strict.enable Strict.disable Strict.while_enabled 10 10.25
     (MkProcess Otel.empty Strict.busy)).1 = None
  /\ ended (telemetry (hello Strict.enable Strict.disable Strict.while_enabled 10 10.25
                         (MkProcess Otel.empty Strict.busy)).2) =
       [MkSpan "hello-operation" ∅].
Proof.
  assert (Hrun : (hello Strict.enable Strict.disable Strict.while_enabled 10 10.25
                    (MkProcess Otel.empty Strict.busy)).1 = None) by reflexivity.
  split; [exact Hrun|].
  exact (proj1 (proj2 (hello_failure Strict.enable Strict.disable Strict.while_enabled
                         _ _ _ Hrun))).
Defined.
